(** * leitmotiv.models._models: the [Model] interface and its persistence helpers

    The Python module defines one abstract base class, [Model], with four
    abstract operations ([train], [infer], [to_dict], [from_dict]) and two
    concrete ones ([save], [load]) that delegate to [pathlib.Path],
    [torch.save] and [torch.load].

    The development below embeds
    - the Python values a state dictionary is made of, with the device each
      tensor lives on;
    - exceptions and the two effects of the code (mutation of the receiver,
      writes to the file system) as explicit state passing;
    - the [abc] machinery that makes [Model] abstract;
    - [save] and [load], line by line;
    and proves the properties the specification states about them.  The
    external collaborators ([pathlib], [torch]) are parameters constrained by
    the part of their documented behaviour a proof needs; a reference
    implementation of them shows that these constraints can be met. *)

From stdpp Require Import gmap strings pretty list fin_maps.
From Stdlib Require Import ZArith Ascii.
Set Warnings "-register-all,-clear-no-such-hyp".

(** ** Python values *)

(** The device a tensor's storage is resident on. *)
Inductive device :=
  | CPU
  | CUDA (idx : nat).

Global Instance device_eq_dec : EqDecision device.
Proof. solve_decision. Defined.

(** The name [str(tensor.device)] prints. *)
Definition device_name (dev : device) : string :=
  match dev with
  | CPU => "cpu"
  | CUDA idx => "cuda:" +:+ pretty idx
  end.

(** What a state dictionary can hold: scalars, strings, tensors (the device
    of the storage and the raw contents of the storage), lists, and nested
    dictionaries with string keys.  A Python [dict] compares equal to another
    one when both have the same keys with equal values, whatever the insertion
    order: that is the equality of [gmap]. *)
Inductive value :=
  | VNone
  | VBool (b : bool)
  | VInt (z : Z)
  | VStr (s : string)
  | VTensor (dev : device) (data : list Z)
  | VList (items : list value)
  | VDict (entries : gmap string value).

(** [torch.load(..., map_location=dev)]: every tensor storage met while the
    object is rebuilt is placed on [dev]; everything else is rebuilt as it
    was pickled. *)
Fixpoint to_device (dev : device) (v : value) : value :=
  match v with
  | VTensor _ data => VTensor dev data
  | VList items => VList (map (to_device dev) items)
  | VDict entries => VDict (to_device dev <$> entries)
  | _ => v
  end.

(** Every tensor inside [v] is resident on [dev]. *)
Fixpoint on_device (dev : device) (v : value) : bool :=
  match v with
  | VTensor d _ => bool_decide (d = dev)
  | VList items => forallb (on_device dev) items
  | VDict entries => map_fold (λ _ x acc, on_device dev x && acc) true entries
  | _ => true
  end.

Fixpoint value_size (v : value) : nat :=
  match v with
  | VList items => S (list_sum (map value_size items))
  | VDict entries => S (map_fold (λ _ x acc, value_size x + acc) 0 entries)
  | _ => 1
  end.

(** ** Exceptions *)

Inductive exn :=
  | TypeError (msg : string)
  | KeyError (key : string)
  | ValueError (msg : string)
  | OSError (msg : string)             (* FileNotFoundError, PermissionError, ... *)
  | SerializationError (msg : string)  (* pickle errors, torch's RuntimeError *)
  | OtherError (msg : string).

(** The errors the write and read primitives raise for a path they cannot
    use: an [OSError] from [open], or the serializer's own error. *)
Definition io_error (e : exn) : bool :=
  match e with
  | OSError _ | SerializationError _ => true
  | _ => false
  end.

(** The outcome of a Python call: a returned value or a raised exception. *)
Inductive result (A : Type) :=
  | Ok (a : A)
  | Raise (e : exn).
Arguments Ok {A} a.
Arguments Raise {A} e.

Definition result_bind {A B} (r : result A) (f : A → result B) : result B :=
  match r with
  | Ok a => f a
  | Raise e => Raise e
  end.

Definition result_map {A B} (f : A → B) (r : result A) : result B :=
  result_bind r (λ a, Ok (f a)).

(** A call that may mutate a store [S]: the store is threaded through, and
    an exception leaves the store as it was when it was raised. *)
Definition Py (S A : Type) : Type := S → result A * S.

Definition py_bind {S A B} (c : Py S A) (f : A → Py S B) : Py S B :=
  λ s, match c s with
       | (Ok a, s') => f a s'
       | (Raise e, s') => (Raise e, s')
       end.

Notation "'let*' x := c 'in' k" := (result_bind c (λ x, k))
  (at level 10, x name, c at level 100, k at level 200).
Notation "'run' x := c 'in' k" := (py_bind c (λ x, k))
  (at level 10, x name, c at level 100, k at level 200).

(** ** The external collaborators

    [save] and [load] use three things they do not define: [pathlib.Path],
    [torch.save] and [torch.load].  They are parameters here.  A path-like
    argument is a string or a path object; the disk is whatever the
    serializer writes to and reads from.  The serializer receives the state
    mapping by value and a disk: it has no access to the model object. *)

Inductive pathlike (Path : Type) :=
  | PStr (s : string)
  | PObj (p : Path).
Arguments PStr {Path} s.
Arguments PObj {Path} p.

Class Externals (Path Disk : Type) := {
  (** [pathlib.Path(path)] *)
  pathlib_Path : pathlike Path → Path;
  (** [torch.save(obj, path)] *)
  torch_save : value → Path → Py Disk unit;
  (** [torch.load(path, map_location=dev)] *)
  torch_load : Path → device → Disk → result value;
  (** observations of the disk: [path.is_file()], [path.parent.is_dir()] *)
  is_file : Path → Disk → bool;
  parent_is_dir : Path → Disk → bool;
}.

(** ** Classes, abstract methods and instantiation ([abc.ABC]) *)

Section ABC.
Context {Obj : Type}.

(** The body of a class statement deriving from [Model]: which of the four
    operations it defines, and how.  [Obj] is the type of the attributes an
    instance carries.  A method receives the instance and may mutate it;
    [from_dict] is static and builds an instance from a mapping.  The bodies
    covered bind each operation concretely or not at all: a body that marks
    a method of its own with [abc.abstractmethod] is outside this model. *)
Record class_body := ClassBody {
  def_train : option (value → Py Obj value);
  def_infer : option (value → Py Obj value);
  def_to_dict : option (Py Obj value);
  def_from_dict : option (value → result Obj);
}.

(** [Model] itself, or a class derived (directly or through other classes)
    from it. *)
Inductive pyclass :=
  | Model
  | Subclass (base : pyclass) (body : class_body).

(** The names [Model] marks with [abc.abstractmethod] and
    [abc.abstractstaticmethod]: its [__abstractmethods__]. *)
Definition Model_abstractmethods : list string :=
  ["train"; "infer"; "to_dict"; "from_dict"].

Definition defined {A} (name : string) (d : option A) : list string :=
  match d with
  | Some _ => [name]
  | None => []
  end.

(** The names a class body binds. *)
Definition namespace (body : class_body) : list string :=
  defined "train" (def_train body) ++ defined "infer" (def_infer body) ++
  defined "to_dict" (def_to_dict body) ++ defined "from_dict" (def_from_dict body).

(** [cls.__abstractmethods__] as [ABCMeta] computes it when the class is
    created: the abstract names of the base that the body does not bind. *)
Fixpoint abstractmethods (cls : pyclass) : list string :=
  match cls with
  | Model => Model_abstractmethods
  | Subclass base body =>
      filter (λ name, name ∉ namespace body) (abstractmethods base)
  end.

(** [cls(...)]: [object.__new__] refuses a class whose
    [__abstractmethods__] is not empty, before [__init__] runs; otherwise
    the instance is the class with the attributes [__init__] sets. *)
Definition instantiate (cls : pyclass) (init : result Obj) : result (pyclass * Obj) :=
  match abstractmethods cls with
  | [] => let* attrs := init in Ok (cls, attrs)
  | names =>
      Raise (TypeError ("Can't instantiate abstract class with abstract methods "
                        +:+ String.concat ", " names))
  end.

(** Attribute lookup along the chain of classes, most derived first.
    [None]: the attribute is the one [Model] defines. *)
Fixpoint mro_lookup {A} (sel : class_body → option A) (cls : pyclass) : option A :=
  match cls with
  | Model => None
  | Subclass base body =>
      match sel body with
      | Some f => Some f
      | None => mro_lookup sel base
      end
  end.

(** [Model.to_dict] and [Model.from_dict]: the body is a docstring, the
    call returns [None]. *)
Definition Model_to_dict : Py Obj value := λ self, (Ok VNone, self).
Definition Model_from_dict (model_dict : value) : result (option Obj) := Ok None.

(** [self.to_dict()] on an instance of [cls]. *)
Definition to_dict (cls : pyclass) : Py Obj value :=
  match mro_lookup def_to_dict cls with
  | Some f => f
  | None => Model_to_dict
  end.

(** [cls.from_dict(model_dict)]: an instance, or Python's [None]. *)
Definition from_dict (cls : pyclass) (model_dict : value) : result (option Obj) :=
  match mro_lookup def_from_dict cls with
  | Some f => result_map Some (f model_dict)
  | None => Model_from_dict model_dict
  end.

(** Some class of the chain below [Model] binds [name]. *)
Fixpoint implements (cls : pyclass) (name : string) : bool :=
  match cls with
  | Model => false
  | Subclass base body => bool_decide (name ∈ namespace body) || implements base name
  end.

(** A concrete class: nothing is left abstract. *)
Definition concrete (cls : pyclass) : Prop := abstractmethods cls = [].

(** [from_dict] inverts [to_dict] on the state [m] exports: rebuilding from
    the mapping [d] that [m] exported gives a model that exports [d]. *)
Definition exact_inverse_at (cls : pyclass) (m : Obj) : Prop :=
  ∀ d m', to_dict cls m = (Ok d, m') →
    ∃ m2 m2', from_dict cls d = Ok (Some m2) ∧ to_dict cls m2 = (Ok d, m2').

(** [from_dict] is the inverse of [to_dict] at the level of state mappings:
    it inverts [to_dict] on the state every model of the class exports. *)
Definition exact_inverse (cls : pyclass) : Prop :=
  ∀ m, exact_inverse_at cls m.

(** The two halves of a two-sided inverse: rebuilding from the export of a
    model gives that model back, and whatever [from_dict] accepts is what the
    rebuilt model exports. *)
Definition rebuilds_model (cls : pyclass) : Prop :=
  ∀ m d m', to_dict cls m = (Ok d, m') → from_dict cls d = Ok (Some m').
Definition exports_back (cls : pyclass) : Prop :=
  ∀ d m, from_dict cls d = Ok (Some m) → to_dict cls m = (Ok d, m).

(** [to_dict] only reads the receiver. *)
Definition non_mutating (cls : pyclass) : Prop :=
  ∀ m r m', to_dict cls m = (r, m') → m' = m.
End ABC.

Arguments class_body Obj : clear implicits.
Arguments pyclass Obj : clear implicits.

(** ** [Model.save] and [Model.load] *)

Section Persistence.
Context {Obj Path Disk : Type} `{!Externals Path Disk}.

(** A call on the receiver leaves the disk alone; a call of the serializer
    leaves the receiver alone. *)
Definition on_self {A} (c : Py Obj A) : Py (Obj * Disk) A :=
  λ '(self, disk), let '(r, self') := c self in (r, (self', disk)).
Definition on_disk {A} (c : Py Disk A) : Py (Obj * Disk) A :=
  λ '(self, disk), let '(r, disk') := c disk in (r, (self, disk')).

(** [def save(self, path)], for [self] an instance of [cls]. *)
Definition save (cls : pyclass Obj) (path : pathlike Path) : Py (Obj * Disk) unit :=
  let path := pathlib_Path path in
  run model_dict := on_self (to_dict cls) in
  on_disk (torch_save model_dict path).

(** [def load(cls, path)], a class method. *)
Definition load (cls : pyclass Obj) (path : pathlike Path) (disk : Disk)
  : result (option Obj) :=
  let path := pathlib_Path path in
  let* model_dict := torch_load path CPU disk in
  from_dict cls model_dict.

(** The steps of [save] in the words of the specification: normalize the
    path, call [to_dict], serialize the returned mapping to that path; an
    error of a step ends the call with that error. *)
Definition save_steps (cls : pyclass Obj) (p : pathlike Path)
  : Obj * Disk → result unit * (Obj * Disk) :=
  λ '(m, disk),
    let canonical := pathlib_Path p in
    match to_dict cls m with
    | (Raise e, m') => (Raise e, (m', disk))
    | (Ok mapping, m') =>
        match torch_save mapping canonical disk with
        | (outcome, disk') => (outcome, (m', disk'))
        end
    end.

(** The steps of [load] in the words of the specification: normalize the
    path, deserialize the mapping from it onto the CPU, hand the mapping as it
    is to the [from_dict] of the class. *)
Definition load_steps (cls : pyclass Obj) (p : pathlike Path) (disk : Disk)
  : result (option Obj) :=
  let canonical := pathlib_Path p in
  match torch_load canonical CPU disk with
  | Raise e => Raise e
  | Ok mapping => from_dict cls mapping
  end.

(** The persistence round trip at one model, path and disk: if [save]
    returns normally, [load] on the class returns a model whose exported
    mapping equals the saved one once the tensors of both are on the CPU. *)
Definition round_trip_at (cls : pyclass Obj) (m : Obj) (p : pathlike Path)
  (disk : Disk) : Prop :=
  ∀ m' disk', save cls p (m, disk) = (Ok (), (m', disk')) →
    ∃ d m2 d2 m2',
      to_dict cls m = (Ok d, m') ∧ load cls p disk' = Ok (Some m2) ∧
      to_dict cls m2 = (Ok d2, m2') ∧ to_device CPU d2 = to_device CPU d.
End Persistence.

(** ** A reference implementation of the external collaborators

    A small file system: the set of directories and the files with the
    object pickled into each.  It shows that what the proofs assume of
    [pathlib] and [torch] can be met, and runs the examples. *)

Record ref_disk := RefDisk {
  dirs : gset (list string);
  files : gmap (list string) value;
}.

(** The components of a path text, cut at each slash. *)
Fixpoint split_slash (s : string) (cur : string) : list string :=
  match s with
  | EmptyString => [cur]
  | String c rest =>
      if Ascii.eqb c "/"%char then cur :: split_slash rest EmptyString
      else split_slash rest (cur +:+ String c EmptyString)
  end.

(** A path object is its list of components; empty components and single
    dots are dropped, as [pathlib] does. *)
Definition ref_Path (p : pathlike (list string)) : list string :=
  match p with
  | PStr s => filter (λ c, c ≠ EmptyString ∧ c ≠ ".") (split_slash s EmptyString)
  | PObj q => q
  end.

Definition ref_torch_save (obj : value) (path : list string) : Py ref_disk unit :=
  λ disk,
    if bool_decide (removelast path ∈ dirs disk) && bool_decide (path ∉ dirs disk)
    then (Ok (), RefDisk (dirs disk) (<[path := obj]> (files disk)))
    else (Raise (OSError "No such file or directory"), disk).

Definition ref_torch_load (path : list string) (map_location : device)
  (disk : ref_disk) : result value :=
  match files disk !! path with
  | Some obj => Ok (to_device map_location obj)
  | None => Raise (OSError "No such file or directory")
  end.

Definition ref_is_file (path : list string) (disk : ref_disk) : bool :=
  bool_decide (is_Some (files disk !! path)).

Definition ref_parent_is_dir (path : list string) (disk : ref_disk) : bool :=
  bool_decide (removelast path ∈ dirs disk).

Global Instance ref_externals : Externals (list string) ref_disk := {
  pathlib_Path := ref_Path;
  torch_save := ref_torch_save;
  torch_load := ref_torch_load;
  is_file := ref_is_file;
  parent_is_dir := ref_parent_is_dir;
}.

(** A disk with the working directory and nothing in it. *)
Definition empty_disk : ref_disk := RefDisk {[ [] ]} ∅.

(** ** Concrete models *)

(** A model that owns one weight tensor and records in its state, next to
    the tensor, the name of the device the tensor is on. *)
Definition tagged_to_dict : Py (device * list Z) value :=
  λ self,
    (Ok (VDict {[ "w" := VTensor self.1 self.2;
                  "device" := VStr (device_name self.1) ]}), self).

(** It rebuilds the model from the two entries and refuses a mapping whose
    recorded device is not the device of the tensor, or that holds anything
    else. *)
Definition tagged_from_dict (model_dict : value) : result (device * list Z) :=
  match model_dict with
  | VDict entries =>
      match entries !! "w", entries !! "device" with
      | Some (VTensor dev data), Some (VStr name) =>
          if bool_decide (name = device_name dev) && bool_decide (size entries = 2)
          then Ok (dev, data)
          else Raise (ValueError "inconsistent state")
      | _, _ => Raise (KeyError "w")
      end
  | _ => Raise (TypeError "model_dict is not a mapping")
  end.

Definition tagged_train (data : value) : Py (device * list Z) value :=
  λ self, (Ok (VInt 0), (self.1, map Z.succ self.2)).

Definition tagged_infer (data : value) : Py (device * list Z) value :=
  λ self, (Ok data, self).

Definition TaggedModel : pyclass (device * list Z) :=
  Subclass Model {|
    def_train := Some tagged_train;
    def_infer := Some tagged_infer;
    def_to_dict := Some tagged_to_dict;
    def_from_dict := Some tagged_from_dict;
  |}.

(** A model that owns one weight tensor and exports nothing else; it is
    rebuilt on whatever device the tensor of the mapping is on. *)
Definition plain_to_dict : Py (device * list Z) value :=
  λ self, (Ok (VDict {[ "w" := VTensor self.1 self.2 ]}), self).

Definition plain_from_dict (model_dict : value) : result (device * list Z) :=
  match model_dict with
  | VDict entries =>
      match entries !! "w" with
      | Some (VTensor dev data) => Ok (dev, data)
      | _ => Raise (KeyError "w")
      end
  | _ => Raise (TypeError "model_dict is not a mapping")
  end.

Definition PlainModel : pyclass (device * list Z) :=
  Subclass Model {|
    def_train := Some tagged_train;
    def_infer := Some tagged_infer;
    def_to_dict := Some plain_to_dict;
    def_from_dict := Some plain_from_dict;
  |}.

(** A subclass that forgets [from_dict]. *)
Definition NoFromDict : pyclass (device * list Z) :=
  Subclass Model {|
    def_train := Some tagged_train;
    def_infer := Some tagged_infer;
    def_to_dict := Some plain_to_dict;
    def_from_dict := None;
  |}.



(** A subclass whose state cannot be exported: its [to_dict] raises. *)
Definition broken_to_dict : Py (device * list Z) value :=
  λ self, (Raise (ValueError "state cannot be exported"), self).

Definition BrokenExportModel : pyclass (device * list Z) :=
  Subclass Model {|
    def_train := Some tagged_train;
    def_infer := Some tagged_infer;
    def_to_dict := Some broken_to_dict;
    def_from_dict := Some plain_from_dict;
  |}.

(** A subclass that counts its exports: the state is the number of exports
    made so far, [to_dict] exports it and increments it, and [from_dict]
    rebuilds the model as the export left it. *)
Definition counting_to_dict : Py nat value :=
  λ self, (Ok (VDict {[ "exports" := VInt (Z.of_nat self) ]}), S self).

Definition counting_from_dict (model_dict : value) : result nat :=
  match model_dict with
  | VDict entries =>
      match entries !! "exports" with
      | Some (VInt z) => Ok (S (Z.to_nat z))
      | _ => Raise (KeyError "exports")
      end
  | _ => Raise (TypeError "model_dict is not a mapping")
  end.

Definition CountingModel : pyclass nat :=
  Subclass Model {|
    def_train := Some (λ _ self, (Ok VNone, self));
    def_infer := Some (λ data self, (Ok data, self));
    def_to_dict := Some counting_to_dict;
    def_from_dict := Some counting_from_dict;
  |}.

(** A model trained on the first GPU, and the disk after it was saved in
    the working directory, as a tagged and as a plain model. *)
Definition gpu_model : device * list Z := (CUDA 0, [1; 2; 3]%Z).

Definition tagged_saved_disk : ref_disk :=
  (save TaggedModel (PStr "model.pt") (gpu_model, empty_disk)).2.2.

Definition plain_saved_disk : ref_disk :=
  (save PlainModel (PStr "model.pt") (gpu_model, empty_disk)).2.2.

(** * Properties *)

(** ** Lemmas on values *)

Lemma value_size_entry (entries : gmap string value) k x :
  entries !! k = Some x → value_size x < value_size (VDict entries).
Proof.
  simpl. revert k x.
  induction entries as [|j y m Hj IH] using map_ind; intros k x Hk.
  - by rewrite lookup_empty in Hk.
  - rewrite map_fold_insert_L; [|intros; lia|done].
    destruct (decide (j = k)) as [->|Hne].
    + rewrite lookup_insert_eq in Hk. injection Hk as ->. lia.
    + rewrite lookup_insert_ne in Hk by done. specialize (IH _ _ Hk). lia.
Qed.

Lemma value_size_item (items : list value) x :
  x ∈ items → value_size x < value_size (VList items).
Proof. simpl. induction 1; simpl; lia. Qed.

(** Induction on values that reaches inside lists and dictionaries. *)
Lemma value_ind' (P : value → Prop) :
  P VNone → (∀ b, P (VBool b)) → (∀ z, P (VInt z)) → (∀ s, P (VStr s)) →
  (∀ dev data, P (VTensor dev data)) →
  (∀ items, Forall P items → P (VList items)) →
  (∀ entries, map_Forall (λ _, P) entries → P (VDict entries)) →
  ∀ v, P v.
Proof.
  intros HN HB HI HS HT HL HD v.
  remember (value_size v) as n eqn:Hn. revert v Hn.
  induction n as [n IH] using lt_wf_ind. intros v ->.
  destruct v as [| | | | |items|entries]; auto.
  - apply HL, Forall_forall. intros x Hx.
    eapply IH; [|reflexivity]. by apply value_size_item.
  - apply HD. intros k x Hk.
    eapply IH; [|reflexivity]. by eapply value_size_entry.
Qed.

Lemma on_device_list dev items :
  on_device dev (VList items) = true ↔ Forall (λ x, on_device dev x = true) items.
Proof. simpl. rewrite forallb_forall, Forall_forall. by setoid_rewrite list_elem_of_In. Qed.

Lemma on_device_dict dev (entries : gmap string value) :
  on_device dev (VDict entries) = true
  ↔ map_Forall (λ _ x, on_device dev x = true) entries.
Proof.
  simpl. induction entries as [|j y m Hj IH] using map_ind.
  - rewrite map_fold_empty. split; [intros _; apply map_Forall_empty|done].
  - rewrite map_fold_insert_L; [|intros; by rewrite !andb_assoc, (andb_comm (on_device _ z1))|done].
    rewrite map_Forall_insert by done. rewrite andb_true_iff, IH. done.
Qed.

(** After [to_device dev], every tensor is on [dev]. *)
Lemma on_device_to_device dev v : on_device dev (to_device dev v) = true.
Proof.
  induction v as [| | | | |items IH|entries IH] using value_ind'; try done.
  - simpl. by apply bool_decide_eq_true.
  - change (to_device dev (VList items)) with (VList (map (to_device dev) items)).
    apply on_device_list. rewrite Forall_map. exact IH.
  - change (to_device dev (VDict entries)) with (VDict (to_device dev <$> entries)).
    apply on_device_dict. apply map_Forall_fmap. exact IH.
Qed.

(** Moving to a device twice is moving once. *)
Lemma to_device_idemp dev v : to_device dev (to_device dev v) = to_device dev v.
Proof.
  induction v as [| | | | |items IH|entries IH] using value_ind'; try done.
  - simpl. f_equal. rewrite map_map. apply map_ext_Forall. exact IH.
  - simpl. f_equal. rewrite <- map_fmap_compose.
    apply map_fmap_ext. intros k x Hk. exact (IH k x Hk).
Qed.

(** A value whose tensors are on [dev] already is left as it is. *)
Lemma to_device_on_device dev v : on_device dev v = true → to_device dev v = v.
Proof.
  induction v as [| | | |d data|items IH|entries IH] using value_ind'; try done.
  - simpl. intros ->%bool_decide_eq_true. done.
  - intros H%on_device_list. simpl. f_equal.
    induction H as [|x items Hx H IHitems]; [done|].
    apply Forall_cons in IH as [IHx IH].
    simpl. f_equal; auto.
  - intros H%on_device_dict. simpl. f_equal.
    rewrite <- (map_fmap_id entries) at 2.
    apply map_fmap_ext. intros k x Hk. apply (IH k x Hk), (H k x Hk).
Qed.

(** ** Abstract classes *)

Section ABCFacts.
Context {Obj : Type}.
Implicit Types (cls : pyclass Obj) (body : class_body Obj) (name : string).

Lemma namespace_spec body name :
  name ∈ namespace body ↔
    (name = "train" ∧ is_Some (def_train body)) ∨
    (name = "infer" ∧ is_Some (def_infer body)) ∨
    (name = "to_dict" ∧ is_Some (def_to_dict body)) ∨
    (name = "from_dict" ∧ is_Some (def_from_dict body)).
Proof.
  unfold namespace, defined. rewrite !elem_of_app.
  destruct (def_train body), (def_infer body), (def_to_dict body),
    (def_from_dict body);
    rewrite ?list_elem_of_singleton, ?elem_of_nil, ?is_Some_alt;
    intuition (try discriminate; try contradiction; eauto).
Qed.

(** A name is abstract in a class exactly when [Model] declares it abstract
    and no class of the chain binds it. *)
Lemma elem_of_abstractmethods cls name :
  name ∈ abstractmethods cls ↔
    name ∈ Model_abstractmethods ∧ implements cls name = false.
Proof.
  induction cls as [|base IH body]; simpl.
  - naive_solver.
  - rewrite list_elem_of_filter, IH, orb_false_iff, bool_decide_eq_false.
    naive_solver.
Qed.

Lemma implements_lookup {A} (sel : class_body Obj → option A) cls name :
  (∀ body, name ∈ namespace body ↔ is_Some (sel body)) →
  implements cls name = true ↔ is_Some (mro_lookup sel cls).
Proof.
  intros Hsel. induction cls as [|base IH body]; simpl.
  - split; [done|]. by intros [? ?].
  - rewrite orb_true_iff, bool_decide_eq_true, IH, Hsel.
    destruct (sel body); split; eauto. intros [[? ?]|?]; done.
Qed.

(** A concrete class has its own [to_dict] and [from_dict]. *)
Lemma concrete_lookup cls :
  concrete cls →
  is_Some (mro_lookup def_to_dict cls) ∧ is_Some (mro_lookup def_from_dict cls).
Proof.
  intros Hc.
  assert (Himpl : ∀ name, name ∈ Model_abstractmethods → implements cls name = true).
  { intros name Hin. destruct (implements cls name) eqn:E; [done|].
    assert (Habs : name ∈ abstractmethods cls) by by apply elem_of_abstractmethods.
    rewrite Hc in Habs. by apply elem_of_nil in Habs. }
  split.
  - apply (implements_lookup def_to_dict cls "to_dict").
    + intros body. rewrite namespace_spec. intuition (try discriminate; eauto).
    + apply Himpl. unfold Model_abstractmethods. set_solver.
  - apply (implements_lookup def_from_dict cls "from_dict").
    + intros body. rewrite namespace_spec. intuition (try discriminate; eauto).
    + apply Himpl. unfold Model_abstractmethods. set_solver.
Qed.

(** C6. A subclass of [Model] (direct or not) in which one of [train],
    [infer], [to_dict], [from_dict] is bound by no class of the chain cannot
    be instantiated: the call of the class raises [TypeError] at
    construction, whatever [__init__] would do, so no instance of it exists
    that could behave as a no-op. *)
Theorem incomplete_subclass_not_instantiable cls name (init : result Obj) :
  name ∈ Model_abstractmethods →
  implements cls name = false →
  (∃ msg, instantiate cls init = Raise (TypeError msg)) ∧
  ∀ inst, instantiate cls init ≠ Ok inst.
Proof.
  intros Hname Himpl.
  assert (Habs : name ∈ abstractmethods cls) by by apply elem_of_abstractmethods.
  unfold instantiate. destruct (abstractmethods cls) as [|n names].
  - by apply elem_of_nil in Habs.
  - split; [eauto|done].
Qed.

(** C10. [Model] itself cannot be instantiated: it declares [train],
    [infer], [to_dict] and [from_dict] abstract and implements none of them,
    so every construction raises [TypeError]. *)
Theorem Model_not_instantiable (init : result Obj) :
  abstractmethods (Obj := Obj) Model = ["train"; "infer"; "to_dict"; "from_dict"] ∧
  (∀ name, implements (Obj := Obj) Model name = false) ∧
  (∃ msg, instantiate Model init = Raise (TypeError msg)) ∧
  ∀ inst, instantiate Model init ≠ Ok inst.
Proof.
  split; [done|]. split; [done|]. split; [|done].
  unfold instantiate. simpl. eauto.
Qed.
End ABCFacts.

(** C6 holds of a subclass that binds everything but [from_dict]. *)
Lemma incomplete_subclass_not_instantiable_witness :
  (∃ msg, instantiate NoFromDict (Ok (CPU, [1%Z])) = Raise (TypeError msg)) ∧
  ∀ inst, instantiate NoFromDict (Ok (CPU, [1%Z])) ≠ Ok inst.
Proof.
  apply (incomplete_subclass_not_instantiable NoFromDict "from_dict").
  - apply (bool_decide_unpack _). vm_compute. exact I.
  - reflexivity.
Defined.

(** ** [save] and [load] *)

Section PersistenceFacts.
Context {Obj Path Disk : Type} `{!Externals Path Disk}.
Implicit Types (cls : pyclass Obj) (p : pathlike Path) (m : Obj) (disk : Disk).

(** What the proofs below use of the documented behaviour of [pathlib] and
    [torch]; each theorem depends on the ones it names only. *)

(** [pathlib.Path] of a path object is that path. *)
Hypothesis Path_of_Path : ∀ q : Path, pathlib_Path (PObj q) = q.

(** What [torch.save] wrote, [torch.load] reads back, with the tensors on
    the device asked for. *)
Hypothesis load_after_save : ∀ obj (q : Path) disk disk' dev,
  torch_save obj q disk = (Ok (), disk') →
  torch_load q dev disk' = Ok (to_device dev obj).

(** [torch.load] of a path that names no file raises an I/O error. *)
Hypothesis load_missing_file : ∀ (q : Path) dev disk,
  is_file q disk = false →
  ∃ e, torch_load q dev disk = Raise e ∧ io_error e = true.

(** [torch.save] into a directory that does not exist raises an I/O error
    and does not create the directory. *)
Hypothesis save_missing_parent : ∀ obj (q : Path) disk,
  parent_is_dir q disk = false →
  ∃ e disk', torch_save obj q disk = (Raise e, disk') ∧ io_error e = true ∧
             parent_is_dir q disk' = false.

Lemma save_unfold cls p m disk :
  save cls p (m, disk) = save_steps cls p (m, disk).
Proof.
  unfold save, save_steps, py_bind, on_self, on_disk.
  destruct (to_dict cls m) as [[d|e] m1]; [|done].
  by destruct (torch_save d (pathlib_Path p) disk).
Qed.

Lemma load_unfold cls p disk : load cls p disk = load_steps cls p disk.
Proof.
  unfold load, load_steps, result_bind.
  by destruct (torch_load (pathlib_Path p) CPU disk).
Qed.

(** A normal return of [save]: [to_dict] returned a mapping and the
    serializer wrote it at the normalized path. *)
Lemma save_Ok_inv cls p m disk m' disk' :
  save cls p (m, disk) = (Ok (), (m', disk')) →
  ∃ d, to_dict cls m = (Ok d, m') ∧
       torch_save d (pathlib_Path p) disk = (Ok (), disk').
Proof.
  rewrite save_unfold. unfold save_steps.
  destruct (to_dict cls m) as [[d|e] m1]; [|done].
  destruct (torch_save d (pathlib_Path p) disk) as [r disk1] eqn:Hwrite.
  intros [= -> -> ->]. by exists d.
Qed.

(** C2. [save] normalizes the path, calls [to_dict], and hands the returned
    mapping with the normalized path to the serializer, in this order and
    nothing else; a string and the path object it normalizes to have the
    same effect. *)
Theorem save_performs_steps cls p m disk :
  save cls p (m, disk) = save_steps cls p (m, disk) ∧
  ∀ s, save cls (PStr s) (m, disk)
       = save cls (PObj (pathlib_Path (PStr s))) (m, disk).
Proof.
  split; [apply save_unfold|].
  intros s. rewrite !save_unfold. unfold save_steps.
  by rewrite Path_of_Path.
Qed.

(** C3. [load] on a concrete class normalizes the path, reads the mapping
    from it with the CPU as map location, and returns what the [from_dict]
    found on the class (most derived first) makes of that very mapping; an
    error of the read or of [from_dict] is the outcome of [load]. *)
Theorem load_performs_steps cls :
  concrete cls →
  ∃ f, mro_lookup def_from_dict cls = Some f ∧
    ∀ p disk,
      load cls p disk = load_steps cls p disk ∧
      load cls p disk =
        match torch_load (pathlib_Path p) CPU disk with
        | Raise e => Raise e
        | Ok mapping =>
            match f mapping with
            | Ok m => Ok (Some m)
            | Raise e => Raise e
            end
        end.
Proof.
  intros [_ [f Hf]]%concrete_lookup. exists f. split; [done|].
  intros p disk. split; [apply load_unfold|].
  rewrite load_unfold. unfold load_steps, from_dict. rewrite Hf.
  destruct (torch_load (pathlib_Path p) CPU disk) as [d|e]; [|done].
  unfold result_map, result_bind. by destruct (f d).
Qed.

(** C4. Whatever devices the tensors of a saved model were on, the mapping
    [load] reads back and hands to [from_dict] has all its tensors on the
    CPU. *)
Theorem load_state_on_cpu cls p m disk m' disk' :
  save cls p (m, disk) = (Ok (), (m', disk')) →
  ∀ cls', ∃ mapping,
    torch_load (pathlib_Path p) CPU disk' = Ok mapping ∧
    on_device CPU mapping = true ∧
    load cls' p disk' = from_dict cls' mapping.
Proof.
  intros (d & _ & Hsave)%save_Ok_inv cls'.
  exists (to_device CPU d). split; [by eapply load_after_save|].
  split; [apply on_device_to_device|].
  unfold load, result_bind. by erewrite load_after_save.
Qed.

(** C7. [load] of a path that names no file raises the I/O error of the
    read, unchanged, and so returns no model. *)
Theorem load_missing_file_raises cls p disk :
  is_file (pathlib_Path p) disk = false →
  ∃ e, load cls p disk = Raise e ∧ io_error e = true ∧
       torch_load (pathlib_Path p) CPU disk = Raise e.
Proof.
  intros (e & He & Hio)%(load_missing_file _ CPU).
  exists e. unfold load, result_bind. by rewrite He.
Qed.

(** C8, as amended.  [save] to a path whose parent directory does not exist raises and
    leaves the directory missing; once [to_dict] has returned the mapping,
    the error is the I/O error of the serializer's single write, the disk is
    the one that write left, and neither is touched by [save]. *)
Theorem save_missing_parent_raises cls p m disk :
  parent_is_dir (pathlib_Path p) disk = false →
  ∃ e m' disk',
    save cls p (m, disk) = (Raise e, (m', disk')) ∧
    parent_is_dir (pathlib_Path p) disk' = false ∧
    ∀ d m1, to_dict cls m = (Ok d, m1) →
      io_error e = true ∧ m' = m1 ∧
      torch_save d (pathlib_Path p) disk = (Raise e, disk').
Proof.
  intros Hparent. rewrite save_unfold. unfold save_steps.
  destruct (to_dict cls m) as [[d|e] m1].
  - destruct (save_missing_parent d _ _ Hparent) as (e & disk' & Hsave & Hio & Hp).
    exists e, m1, disk'. rewrite Hsave. split; [done|]. split; [done|].
    by intros ? ? [= <- <-].
  - exists e, m1, disk. split; [done|]. split; [done|]. by intros.
Qed.

(** The only change [save] makes to the model is the one [to_dict] makes. *)
Lemma save_model_after cls p m disk r m' disk' :
  save cls p (m, disk) = (r, (m', disk')) → m' = (to_dict cls m).2.
Proof.
  rewrite save_unfold. unfold save_steps.
  destruct (to_dict cls m) as [[d|e] m1]; simpl.
  - destruct (torch_save d (pathlib_Path p) disk). by intros [= _ <- _].
  - by intros [= _ <- _].
Qed.

(** C9. With a [to_dict] that only reads the model, [save] leaves the model
    as it was, whether the write succeeds or not, and [to_dict] returns the
    same mapping before and after the call. *)
Theorem save_leaves_model cls p m disk r m' disk' :
  non_mutating cls →
  save cls p (m, disk) = (r, (m', disk')) →
  m' = m ∧ (to_dict cls m').1 = (to_dict cls m).1.
Proof.
  intros Hread Hm%save_model_after.
  assert (m' = m) as ->; [|done].
  rewrite Hm. destruct (to_dict cls m) as [r1 m1] eqn:E. by eapply Hread.
Qed.

(** C1, as amended.  For a class whose [from_dict] is the exact inverse of
    its [to_dict], the round trip through [save] and [load] holds at every
    model whose exported mapping, with its tensors moved to the CPU, is again
    a mapping some model of the class exports. *)
Theorem save_load_round_trip cls m p disk :
  exact_inverse cls →
  (∀ d m', to_dict cls m = (Ok d, m') →
     ∃ mc mc', to_dict cls mc = (Ok (to_device CPU d), mc')) →
  round_trip_at cls m p disk.
Proof.
  intros Hinv Hcpu m' disk' Hsave.
  destruct (save_Ok_inv _ _ _ _ _ _ Hsave) as (d & Hd & Hwrite).
  destruct (Hcpu _ _ Hd) as (mc & mc' & Hmc).
  destruct (Hinv mc _ _ Hmc) as (m2 & m2' & Hfrom & Hto).
  exists d, m2, (to_device CPU d), m2'. split; [done|]. split.
  - unfold load, result_bind. by erewrite load_after_save.
  - split; [done|]. apply to_device_idemp.
Qed.
End PersistenceFacts.

(** ** The reference collaborators meet the assumptions *)

Lemma ref_Path_of_Path (q : list string) : pathlib_Path (PObj q) = q.
Proof. reflexivity. Qed.

Lemma ref_load_after_save obj (q : list string) disk disk' dev :
  torch_save obj q disk = (Ok (), disk') →
  torch_load q dev disk' = Ok (to_device dev obj).
Proof.
  simpl. unfold ref_torch_save, ref_torch_load.
  destruct (_ && _); [|done]. intros [= <-]. simpl.
  by rewrite lookup_insert_eq.
Qed.

Lemma ref_load_missing_file (q : list string) dev disk :
  is_file q disk = false →
  ∃ e, torch_load q dev disk = Raise e ∧ io_error e = true.
Proof.
  simpl. unfold ref_is_file, ref_torch_load.
  intros Hnone%bool_decide_eq_false. destruct (files disk !! q) as [obj|].
  - destruct Hnone. eauto.
  - eauto.
Qed.

Lemma ref_save_missing_parent obj (q : list string) disk :
  parent_is_dir q disk = false →
  ∃ e disk', torch_save obj q disk = (Raise e, disk') ∧ io_error e = true ∧
             parent_is_dir q disk' = false.
Proof.
  simpl. unfold ref_parent_is_dir, ref_torch_save. intros Hparent.
  rewrite Hparent. simpl. eauto.
Qed.

(** ** The concrete models *)


Lemma tagged_non_mutating : non_mutating TaggedModel.
Proof. intros m r m'. unfold to_dict. simpl. by intros [= _ <-]. Qed.

Lemma plain_exact_inverse : exact_inverse PlainModel.
Proof.
  intros [dev data] d m'. unfold to_dict, from_dict. simpl.
  unfold plain_to_dict. intros [= <- <-]. exists (dev, data), (dev, data).
  split; [|done]. unfold plain_from_dict. simpl. by rewrite lookup_singleton_eq.
Qed.

Lemma tagged_entries_lookup dev data :
  ({[ "w" := VTensor dev data; "device" := VStr (device_name dev) ]}
     : gmap string value) !! "w" = Some (VTensor dev data) ∧
  ({[ "w" := VTensor dev data; "device" := VStr (device_name dev) ]}
     : gmap string value) !! "device" = Some (VStr (device_name dev)) ∧
  size ({[ "w" := VTensor dev data; "device" := VStr (device_name dev) ]}
     : gmap string value) = 2.
Proof.
  split; [by rewrite lookup_insert_eq|]. split.
  - rewrite lookup_insert_ne by done. by rewrite lookup_singleton_eq.
  - rewrite map_size_insert_None by by rewrite lookup_singleton_ne.
    by rewrite map_size_singleton.
Qed.

(** The tagged model rebuilds from its own export the model that exported. *)
Lemma tagged_rebuilds_model : rebuilds_model TaggedModel.
Proof.
  intros [dev data] d m'. unfold to_dict, from_dict. simpl.
  unfold tagged_to_dict. intros [= <- <-].
  unfold tagged_from_dict. simpl.
  destruct (tagged_entries_lookup dev data) as (-> & -> & ->).
  by rewrite !bool_decide_eq_true_2.
Qed.

Lemma tagged_exact_inverse : exact_inverse TaggedModel.
Proof.
  intros m d m' Hd. exists m', m'. split; [by eapply tagged_rebuilds_model|].
  revert Hd. unfold to_dict. simpl. unfold tagged_to_dict.
  by intros [= <- <-].
Qed.

(** Whatever mapping its [from_dict] accepts is the mapping the rebuilt
    model exports: on the tagged model, [from_dict] and [to_dict] are
    inverse of each other in both directions. *)
Lemma tagged_exports_back : exports_back TaggedModel.
Proof.
  intros d [dev data]. unfold to_dict, from_dict. simpl.
  unfold tagged_from_dict, tagged_to_dict.
  destruct d as [| | | | | |entries]; try done.
  destruct (entries !! "w") as [[| | | |dev' data'| |]|] eqn:Hw; try done.
  destruct (entries !! "device") as [[| | |name| | |]|] eqn:Hdev; try done.
  destruct (bool_decide (name = device_name dev')) eqn:Hname; [|done].
  destruct (bool_decide (size entries = 2)) eqn:Hsize; [|done].
  simpl. intros [= -> ->].
  apply bool_decide_eq_true in Hname as ->.
  apply bool_decide_eq_true in Hsize.
  do 3 f_equal.
  apply map_subseteq_size_eq.
  - apply map_subseteq_spec. intros k x.
    destruct (decide (k = "w")) as [->|Hk1].
    { rewrite lookup_insert_eq. by intros [= <-]. }
    rewrite lookup_insert_ne by done.
    destruct (decide (k = "device")) as [->|Hk2].
    { rewrite lookup_singleton_eq. by intros [= <-]. }
    by rewrite lookup_singleton_ne.
  - rewrite Hsize. by destruct (tagged_entries_lookup dev data) as (_ & _ & ->).
Qed.

(** ** The theorems at work on the reference collaborators *)

(** The class method [load] does not go through instantiation: on a class
    that leaves [from_dict] abstract it runs the docstring-only body of
    [Model.from_dict] and returns [None]. *)
Lemma load_without_from_dict :
  load NoFromDict (PStr "model.pt") plain_saved_disk = Ok None.
Proof. vm_compute. reflexivity. Qed.

Lemma save_performs_steps_witness :
  save TaggedModel (PStr "runs//./model.pt") (gpu_model, empty_disk)
  = save_steps TaggedModel (PStr "runs//./model.pt") (gpu_model, empty_disk) ∧
  ∀ s, save TaggedModel (PStr s) (gpu_model, empty_disk)
       = save TaggedModel (PObj (pathlib_Path (PStr s))) (gpu_model, empty_disk).
Proof. apply (save_performs_steps ref_Path_of_Path). Defined.

Lemma load_performs_steps_witness :
  ∃ f, mro_lookup def_from_dict TaggedModel = Some f ∧
    ∀ (p : pathlike (list string)) (disk : ref_disk),
      load TaggedModel p disk = load_steps TaggedModel p disk ∧
      load TaggedModel p disk =
        match torch_load (pathlib_Path p) CPU disk with
        | Raise e => Raise e
        | Ok mapping =>
            match f mapping with
            | Ok m => Ok (Some m)
            | Raise e => Raise e
            end
        end.
Proof. apply load_performs_steps. reflexivity. Defined.

Lemma load_state_on_cpu_witness :
  ∃ mapping,
    torch_load (pathlib_Path (PStr "model.pt")) CPU tagged_saved_disk = Ok mapping ∧
    on_device CPU mapping = true ∧
    load PlainModel (PStr "model.pt") tagged_saved_disk
    = from_dict PlainModel mapping.
Proof.
  apply (load_state_on_cpu ref_load_after_save TaggedModel (PStr "model.pt")
           gpu_model empty_disk gpu_model tagged_saved_disk).
  vm_compute. reflexivity.
Defined.

Lemma load_missing_file_raises_witness :
  ∃ e, load TaggedModel (PStr "missing.pt") empty_disk = Raise e ∧
       io_error e = true ∧
       torch_load (pathlib_Path (PStr "missing.pt")) CPU empty_disk = Raise e.
Proof.
  apply (load_missing_file_raises ref_load_missing_file). reflexivity.
Defined.

Lemma save_missing_parent_raises_witness :
  ∃ e m' disk',
    save TaggedModel (PStr "runs/model.pt") (gpu_model, empty_disk)
    = (Raise e, (m', disk')) ∧
    parent_is_dir (pathlib_Path (PStr "runs/model.pt")) disk' = false ∧
    io_error e = true ∧ m' = gpu_model.
Proof.
  destruct (save_missing_parent_raises ref_save_missing_parent TaggedModel
              (PStr "runs/model.pt") gpu_model empty_disk eq_refl)
    as (e & m' & disk' & Hsave & Hparent & Hwrite).
  destruct (Hwrite _ gpu_model eq_refl) as (Hio & Hm & _).
  by exists e, m', disk'.
Defined.

Lemma save_leaves_model_witness :
  gpu_model = gpu_model ∧
  (to_dict TaggedModel gpu_model).1 = (to_dict TaggedModel gpu_model).1.
Proof.
  apply (save_leaves_model TaggedModel (PStr "model.pt") gpu_model empty_disk
           (Ok ()) gpu_model tagged_saved_disk tagged_non_mutating).
  vm_compute. reflexivity.
Defined.

Lemma save_load_round_trip_witness :
  ∃ d m2 d2 m2',
    to_dict PlainModel gpu_model = (Ok d, gpu_model) ∧
    load PlainModel (PStr "model.pt") plain_saved_disk = Ok (Some m2) ∧
    to_dict PlainModel m2 = (Ok d2, m2') ∧
    to_device CPU d2 = to_device CPU d.
Proof.
  apply (save_load_round_trip ref_load_after_save PlainModel gpu_model
           (PStr "model.pt") empty_disk).
  - exact plain_exact_inverse.
  - intros d m'. unfold to_dict. simpl. unfold plain_to_dict.
    intros [= <- <-]. exists (CPU, [1; 2; 3]%Z), (CPU, [1; 2; 3]%Z).
    vm_compute. reflexivity.
  - vm_compute. reflexivity.
Defined.

(** C1, as stated, fails.  The tagged model is concrete and its [from_dict]
    is the exact inverse of its [to_dict]; saved from the GPU, its mapping
    comes back with the tensor on the CPU and the recorded device name
    unchanged, [from_dict] refuses it, and [load] raises instead of
    returning a model. *)
Lemma tagged_round_trip_fails :
  concrete TaggedModel ∧ exact_inverse TaggedModel ∧
  save TaggedModel (PStr "model.pt") (gpu_model, empty_disk)
  = (Ok (), (gpu_model, tagged_saved_disk)) ∧
  load TaggedModel (PStr "model.pt") tagged_saved_disk
  = Raise (ValueError "inconsistent state") ∧
  ¬ round_trip_at TaggedModel gpu_model (PStr "model.pt") empty_disk.
Proof.
  split; [reflexivity|]. split; [exact tagged_exact_inverse|].
  assert (Hsave : save TaggedModel (PStr "model.pt") (gpu_model, empty_disk)
                  = (Ok (), (gpu_model, tagged_saved_disk)))
    by (vm_compute; reflexivity).
  assert (Hload : load TaggedModel (PStr "model.pt") tagged_saved_disk
                  = Raise (ValueError "inconsistent state"))
    by (vm_compute; reflexivity).
  split; [done|]. split; [done|].
  intros Hrt. destruct (Hrt _ _ Hsave) as (d & m2 & d2 & m2' & _ & Hm2 & _).
  rewrite Hload in Hm2. discriminate.
Qed.

(** C8, as stated, fails.  With a [to_dict] that raises, [save] to a path
    whose parent directory does not exist raises the error of [to_dict], which
    is not a serialization or I/O error: the serializer is never reached. *)
Lemma broken_export_save_raises_value_error :
  concrete BrokenExportModel ∧
  parent_is_dir (pathlib_Path (PStr "runs/model.pt")) empty_disk = false ∧
  save BrokenExportModel (PStr "runs/model.pt") (gpu_model, empty_disk)
  = (Raise (ValueError "state cannot be exported"), (gpu_model, empty_disk)) ∧
  io_error (ValueError "state cannot be exported") = false ∧
  ¬ ∃ e after,
      save BrokenExportModel (PStr "runs/model.pt") (gpu_model, empty_disk)
      = (Raise e, after) ∧ io_error e = true.
Proof.
  assert (Hsave :
    save BrokenExportModel (PStr "runs/model.pt") (gpu_model, empty_disk)
    = (Raise (ValueError "state cannot be exported"), (gpu_model, empty_disk)))
    by (vm_compute; reflexivity).
  split; [reflexivity|]. split; [reflexivity|]. split; [exact Hsave|].
  split; [reflexivity|].
  intros (e & after & Hraise & Hio). rewrite Hsave in Hraise.
  injection Hraise as <- _. discriminate.
Qed.



(** The assumption that [to_dict] only reads cannot be dropped from the
    amended C5: the counting model is rebuilt as its export left it, and
    exports another mapping the next time. *)
Lemma counting_rebuilds_not_inverse :
  concrete CountingModel ∧ rebuilds_model CountingModel ∧
  ¬ exact_inverse_at CountingModel 0.
Proof.
  split; [reflexivity|]. split.
  - intros m d m'. unfold to_dict, from_dict. simpl. unfold counting_to_dict.
    intros [= <- <-]. unfold counting_from_dict.
    rewrite lookup_singleton_eq. simpl. by rewrite Nat2Z.id.
  - intros Hinv. destruct (Hinv _ _ eq_refl) as (m2 & m2' & Hfrom & Hto2).
    assert (m2 = 1) as -> by (vm_compute in Hfrom; congruence).
    apply (f_equal (λ r, match r.1 with
                         | Ok (VDict entries) => entries !! "exports"
                         | _ => None
                         end)) in Hto2.
    vm_compute in Hto2. discriminate.
Qed.

(** ** Further properties of [Model], [save] and [load] *)

Section ABCMore.
Context {Obj : Type}.
Implicit Types (cls : pyclass Obj) (name : string).

(** A class that no class of the chain gives a [from_dict] finds the one of
    [Model]. *)
Lemma lookup_from_dict_abstract cls :
  implements cls "from_dict" = false → mro_lookup def_from_dict cls = None.
Proof.
  intros Himpl. apply eq_None_not_Some. intros Hsome.
  apply (implements_lookup def_from_dict cls "from_dict") in Hsome.
  - congruence.
  - intros body. rewrite namespace_spec. intuition (try discriminate; eauto).
Qed.
End ABCMore.

Section PersistenceMore.
Context {Obj Path Disk : Type} `{!Externals Path Disk}.
Implicit Types (cls : pyclass Obj) (p : pathlike Path) (m : Obj) (disk : Disk).

(** The documented behaviour of [pathlib] and [torch] used below. *)
Hypothesis Path_of_Path : ∀ q : Path, pathlib_Path (PObj q) = q.
Hypothesis load_after_save : ∀ obj (q : Path) disk disk' dev,
  torch_save obj q disk = (Ok (), disk') →
  torch_load q dev disk' = Ok (to_device dev obj).

(** X1. [load] is a class method and does not go through instantiation: on
    [Model] itself, or on a subclass in which no class binds [from_dict], it
    runs the docstring-only [Model.from_dict] and returns [None] whenever the
    file can be read; only an error of the read is raised. *)
Theorem load_abstract_from_dict cls p disk :
  implements cls "from_dict" = false →
  load cls p disk =
    match torch_load (pathlib_Path p) CPU disk with
    | Ok _ => Ok None
    | Raise e => Raise e
    end.
Proof.
  intros Hnone%lookup_from_dict_abstract.
  unfold load, result_bind, from_dict. rewrite Hnone.
  by destruct (torch_load (pathlib_Path p) CPU disk).
Qed.

(** X2. [save] raises an error exactly when [to_dict] raises it (and then
    nothing is written: the disk is the one before the call) or when
    [to_dict] returns a mapping and the serializer raises it on that mapping at
    the normalized path; [save] neither adds an error of its own nor swallows
    one. *)
Theorem save_raises_iff cls p m disk e m' disk' :
  save cls p (m, disk) = (Raise e, (m', disk')) ↔
  (to_dict cls m = (Raise e, m') ∧ disk' = disk) ∨
  (∃ d, to_dict cls m = (Ok d, m') ∧
        torch_save d (pathlib_Path p) disk = (Raise e, disk')).
Proof.
  rewrite save_unfold. unfold save_steps.
  destruct (to_dict cls m) as [[d|e0] m1].
  - destruct (torch_save d (pathlib_Path p) disk) as [r disk1] eqn:Hwrite.
    split.
    + intros [= -> -> ->]. right. by exists d.
    + intros [[Hto _]|(d' & Hto & Hsave)]; [congruence|].
      injection Hto as <- <-. rewrite Hwrite in Hsave.
      by injection Hsave as -> ->.
  - split.
    + intros [= -> -> ->]. by left.
    + intros [[Hto ->]|(d' & Hto & _)]; [|congruence].
      by injection Hto as -> ->.
Qed.

(** X3. [load] raises an error exactly when the read raises it or when the
    read returns a mapping and the [from_dict] found on the class raises it on
    that mapping. *)
Theorem load_raises_iff cls p disk e :
  load cls p disk = Raise e ↔
  torch_load (pathlib_Path p) CPU disk = Raise e ∨
  (∃ d f, torch_load (pathlib_Path p) CPU disk = Ok d ∧
          mro_lookup def_from_dict cls = Some f ∧ f d = Raise e).
Proof.
  unfold load, result_bind, from_dict, Model_from_dict.
  destruct (torch_load (pathlib_Path p) CPU disk) as [d|e0].
  - destruct (mro_lookup def_from_dict cls) as [f|] eqn:Hf.
    + unfold result_map, result_bind. split.
      * intros Hfd. right. exists d, f. destruct (f d); [done|].
        by injection Hfd as ->.
      * intros [Hread|(d' & f' & Hread & Hf' & Hfd)]; [done|].
        injection Hread as <-. injection Hf' as <-. by rewrite Hfd.
    + split; [done|]. intros [Hread|(d' & f' & _ & Hf' & _)]; congruence.
  - split.
    + intros [= ->]. by left.
    + intros [Hread|(d' & f' & Hread & _)]; congruence.
Qed.

(** X4. What [load] makes of a file [save] wrote: the [from_dict] of the
    loading class applied to the mapping [to_dict] exported, with its tensors
    moved to the CPU; nothing of the saving class or of what the disk held
    before takes part. *)
Theorem load_after_save_composes cls p m disk m' disk' (cls' : pyclass Obj) :
  save cls p (m, disk) = (Ok (), (m', disk')) →
  ∃ d, to_dict cls m = (Ok d, m') ∧
       load cls' p disk' = from_dict cls' (to_device CPU d).
Proof.
  intros (d & Hd & Hwrite)%save_Ok_inv. exists d. split; [done|].
  unfold load, result_bind. by erewrite load_after_save.
Qed.

(** X5. [load] of a string and [load] of the path object the string
    normalizes to give the same outcome. *)
Theorem load_str_as_path cls s disk :
  load cls (PStr s) disk = load cls (PObj (pathlib_Path (PStr s))) disk.
Proof. unfold load. by rewrite Path_of_Path. Qed.

(** X6. For a class whose [from_dict] rebuilds from an exported mapping the
    model that exported it, [load] after a successful [save] of a model whose
    tensors are on the CPU returns that very model. *)
Theorem save_load_restores_model cls p m disk m' disk' :
  rebuilds_model cls →
  (∀ d, to_dict cls m = (Ok d, m') → on_device CPU d = true) →
  save cls p (m, disk) = (Ok (), (m', disk')) →
  load cls p disk' = Ok (Some m').
Proof.
  intros Hrebuild Hcpu (d & Hd & Hwrite)%save_Ok_inv.
  unfold load, result_bind. erewrite load_after_save by done.
  rewrite to_device_on_device by by eapply Hcpu.
  by eapply Hrebuild.
Qed.
End PersistenceMore.

Lemma load_abstract_from_dict_witness :
  load NoFromDict (PStr "model.pt") plain_saved_disk =
    match torch_load (pathlib_Path (PStr "model.pt")) CPU plain_saved_disk with
    | Ok _ => Ok None
    | Raise e => Raise e
    end.
Proof. apply load_abstract_from_dict. reflexivity. Defined.

Lemma load_after_save_composes_witness :
  ∃ d, to_dict TaggedModel gpu_model = (Ok d, gpu_model) ∧
       load PlainModel (PStr "model.pt") tagged_saved_disk
       = from_dict PlainModel (to_device CPU d).
Proof.
  apply (load_after_save_composes ref_load_after_save TaggedModel
           (PStr "model.pt") gpu_model empty_disk gpu_model tagged_saved_disk).
  vm_compute. reflexivity.
Defined.

Lemma load_str_as_path_witness :
  load TaggedModel (PStr "runs//./model.pt") tagged_saved_disk
  = load TaggedModel (PObj (pathlib_Path (PStr "runs//./model.pt")))
      tagged_saved_disk.
Proof. apply (load_str_as_path ref_Path_of_Path). Defined.

Lemma save_load_restores_model_witness :
  load TaggedModel (PStr "model.pt")
    (save TaggedModel (PStr "model.pt") ((CPU, [4; 5]%Z), empty_disk)).2.2
  = Ok (Some (CPU, [4; 5]%Z)).
Proof.
  apply (save_load_restores_model ref_load_after_save TaggedModel
           (PStr "model.pt") (CPU, [4; 5]%Z) empty_disk).
  - exact tagged_rebuilds_model.
  - intros d. unfold to_dict. simpl. unfold tagged_to_dict.
    intros [= <-]. vm_compute. reflexivity.
  - vm_compute. reflexivity.
Defined.
